(** * typescript-has: the [Tuple] and [Maybe] modules

    A shallow embedding of [src/lib/tuple.ts] and [src/lib/maybe.ts].

    - A function value of two parameters [(a, b) => r] (a callback, a
      returned function, and [Tuple.of], which [zip] hands to
      [zipWith]) takes its argument list as a pair, [A * B -> R]; a
      staged function [a => b => r] is [A -> B -> R].  The two calling
      conventions have different types, as [curry] and [curryTuple]
      convert between them.  The functions [or], [ap], [zip] and the
      method [zipWith], which the code only ever calls by name with
      both arguments, are Rocq functions of two arguments.
    - A module is evaluated top to bottom: [tuple.ts] is a sequence of
      two statements over the hoisted variable [Tuple], and what
      [maybe.ts] imports is what [export default] stored.
    - The class hierarchy [Maybe] / [Just] / [Nothing] is an inductive
      type; the two overridden methods [fold] and [isJust] are the two
      functions of [Module Variant], which case-split on the receiver.
    - The free functions of [module Maybe] live in [Module Maybe], the
      delegating instance methods of [class Maybe] in [Module Method],
      with the receiver [this] as first argument.
    - Code that can raise (indexing past the end of an array and calling
      a method on the result) runs in the [Completion] monad; the [for]
      loop of [rightmost] takes fuel. *)

From Stdlib Require Import List ZArith Lia Bool.
Import ListNotations.

Set Implicit Arguments.

(* ================================================================== *)
(** ** tuple.ts *)
(* ================================================================== *)

Module Tuple.

(** [interface Tuple<A, B> { fst: A; snd: B; }] *)
Record Tuple (A B : Type) : Type := { fst : A; snd : B }.

Section Functions.
Variables A B R : Type.

(** [of(a, b)] returns [{fst: a, snd: b}]. *)
Definition of_ : A * B -> Tuple A B :=
  fun '(a, b) => {| fst := a; snd := b |}.

(** [tuple(fn)] is [tupled(tuple) = fn(tuple.fst, tuple.snd)]. *)
Definition tuple (fn : A * B -> R) : Tuple A B -> R :=
  fun tuple => fn (fst tuple, snd tuple).

(** [curryTuple(fn)] is [step1(fst) = step2(snd) = fn({fst, snd})]. *)
Definition curryTuple (fn : Tuple A B -> R) : A -> B -> R :=
  fun fst => fun snd => fn {| fst := fst; snd := snd |}.

(** [curry(fn)] is [step1(fst) = step2(snd) = fn(fst, snd)]. *)
Definition curry (fn : A * B -> R) : A -> B -> R :=
  fun fst => fun snd => fn (fst, snd).
End Functions.

(** The object that [module Tuple { ... }] builds: its four exported
    functions, each generic in its type parameters. *)
Record Namespace : Type := {
  ns_of : forall A B : Type, A * B -> Tuple A B;
  ns_tuple : forall A B R : Type, (A * B -> R) -> Tuple A B -> R;
  ns_curryTuple : forall A B R : Type, (Tuple A B -> R) -> A -> B -> R;
  ns_curry : forall A B R : Type, (A * B -> R) -> A -> B -> R
}.

Definition namespace : Namespace :=
  {| ns_of := of_;
     ns_tuple := tuple;
     ns_curryTuple := curryTuple;
     ns_curry := curry |}.

(** The state of the module while it is evaluated: the variable [Tuple]
    that the namespace declaration introduces (hoisted, [undefined] -
    here [None] - until the declaration has run) and the value stored
    as the default export. *)
Record Scope : Type := {
  var_Tuple : option Namespace;
  export_default : option Namespace
}.

Definition scope0 : Scope :=
  {| var_Tuple := None; export_default := None |}.

(** Line 9, [export default Tuple;]: stores the value [Tuple] has when
    the statement runs. *)
Definition run_export_default (s : Scope) : Scope :=
  {| var_Tuple := var_Tuple s; export_default := var_Tuple s |}.

(** Lines 16-53, [module Tuple { ... }]: assigns the namespace object to
    [Tuple]. *)
Definition run_module_Tuple (s : Scope) : Scope :=
  {| var_Tuple := Some namespace; export_default := export_default s |}.

(** [tuple.ts], its statements in the order they are written. *)
Definition tuple_ts : Scope :=
  run_module_Tuple (run_export_default scope0).

End Tuple.

(* ================================================================== *)
(** ** maybe.ts: the data type *)
(* ================================================================== *)

(** [class Just<A> extends Maybe<A>] with its field [value], and
    [class Nothing<A> extends Maybe<A>]. *)
Inductive Maybe (A : Type) : Type :=
| Just (value : A)
| Nothing.

Arguments Nothing {A}.

(** [interface Elim<A, R> { just: (a: A) => R; nothing: R; }] *)
Record Elim (A R : Type) : Type := { just : A -> R; nothing : R }.

(** [function id<A>(a: A): A { return a; }] *)
Definition id {A : Type} (a : A) : A := a.

(** The methods that [Just] and [Nothing] override. *)
Module Variant.

(** [Just.isJust() = true], [Nothing.isJust() = false]. *)
Definition isJust {A : Type} (this : Maybe A) : bool :=
  match this with
  | Just _ => true
  | Nothing => false
  end.

(** [Just.fold(match) = match.just(this.value)],
    [Nothing.fold(match) = match.nothing]. *)
Definition fold {A R : Type} (this : Maybe A) (match_ : Elim A R) : R :=
  match this with
  | Just value => just match_ value
  | Nothing => nothing match_
  end.

End Variant.

(* ================================================================== *)
(** ** Completions of statements that can raise *)
(* ================================================================== *)

Inductive JsError : Type := TypeError.

Inductive Completion (X : Type) : Type :=
| Normal (x : X)
| Throw (e : JsError).

Arguments Throw {X} e.

Definition andThen {X Y : Type} (c : Completion X) (k : X -> Completion Y)
  : Completion Y :=
  match c with
  | Normal x => k x
  | Throw e => Throw e
  end.

Notation "x <- c ;; k" := (andThen c (fun x => k))
  (at level 61, c at next level, right associativity).

(** [arr[i]] for a number [i]: the element when [0 <= i < arr.length],
    [undefined] (here [None]) otherwise. *)
Definition index {X : Type} (arr : list X) (i : Z) : option X :=
  if (i <? 0)%Z then None else nth_error arr (Z.to_nat i).

(** The object of a method call [x.m()] or of a property read [x.p],
    where [x] was read out of an array or imported: on [undefined]
    either raises a [TypeError]. *)
Definition receiver {X : Type} (x : option X) : Completion X :=
  match x with
  | Some obj => Normal obj
  | None => Throw TypeError
  end.

(** [Array.prototype.forEach]: calls [callbackfn] on every element in
    order, discards what each call returns, and returns [undefined]. *)
Fixpoint forEach {X Y : Type} (callbackfn : X -> Completion Y) (arr : list X)
  : Completion unit :=
  match arr with
  | [] => Normal tt
  | x :: rest => _ <- callbackfn x ;; forEach callbackfn rest
  end.

(* ================================================================== *)
(** ** maybe.ts: the free functions of [module Maybe] *)
(* ================================================================== *)

(** [import Tuple from 'tuple';]: the default export of [tuple.ts]. *)
Definition imported_Tuple : option Tuple.Namespace :=
  Tuple.export_default Tuple.tuple_ts.

Module Maybe.

Section Functions.
Variables A B R : Type.

(** [of(value) = new Just(value)] *)
Definition of_ (value : A) : Maybe A := Just value.

(** [zero() = new Nothing()] *)
Definition zero : Maybe A := Nothing.

(** [fold(match)] is [eliminator(m) = m.fold(match)]. *)
Definition fold (match_ : Elim A R) : Maybe A -> R :=
  fun m => Variant.fold m match_.
End Functions.

Arguments zero {A}.

Section Combinators.
Variables A B R : Type.

Definition map (fn : A -> B) : Maybe A -> Maybe B :=
  fun ma =>
    Variant.fold ma
      {| just := fun a => Just (fn a);
         nothing := zero |}.

Definition bind (fn : A -> Maybe B) : Maybe A -> Maybe B :=
  fun ma =>
    Variant.fold ma
      {| just := fun a => fn a;
         nothing := zero |}.

Definition zipWith (fn : A * B -> R) : Maybe A * Maybe B -> Maybe R :=
  fun '(ma, mb) =>
    Variant.fold ma
      {| just := fun a =>
           Variant.fold mb
             {| just := fun b => of_ (fn (a, b));
                nothing := zero |};
         nothing := zero |}.

Definition ap (mf : Maybe (A -> B)) (ma : Maybe A) : Maybe B :=
  Variant.fold mf
    {| just := fun f =>
         Variant.fold ma
           {| just := fun a => of_ (f a);
              nothing := zero |};
       nothing := zero |}.

Definition or (m1 m2 : Maybe A) : Maybe A :=
  Variant.fold m1
    {| just := fun _ => m1;
       nothing := m2 |}.
End Combinators.

(** [zip(ma, mb) = zipWith(Tuple.of)(ma, mb)]: the argument [Tuple.of]
    is a property read on the imported [Tuple], which raises a
    [TypeError] when that is [undefined]. *)
Definition zip {A B : Type} (ma : Maybe A) (mb : Maybe B)
  : Completion (Maybe (Tuple.Tuple A B)) :=
  Tuple_ <- receiver imported_Tuple ;;
  Normal (zipWith (Tuple.ns_of Tuple_ (A:=A) (B:=B)) (ma, mb)).

(** [guard(b)]: the empty object literal is the one value of [unit]. *)
Definition guard (b : bool) : Maybe unit :=
  if b then of_ tt else zero.

Section Variadic.
Variable A : Type.

(** [leftmost(...maybes)]: the arrow function handed to [forEach]
    returns [v] or falls off its end ([undefined]); the statement
    after the [forEach] call is [return zero()]. *)
Definition leftmost (maybes : list (Maybe A)) : Completion (Maybe A) :=
  _ <- forEach
         (fun v => if Variant.isJust v then Normal (Some v) else Normal None)
         maybes ;;
  Normal zero.

(** The loop [for (...; 0 >= i; i--) { var x = maybes[i];
    if (x.isJust()) { return x; } }] entered with counter [i].
    [None] is "out of fuel"; after the loop comes [return zero()]. *)
Fixpoint rightmost_loop (fuel : nat) (maybes : list (Maybe A)) (i : Z)
  : option (Completion (Maybe A)) :=
  match fuel with
  | O => None
  | S fuel' =>
      if (0 >=? i)%Z then
        match receiver (index maybes i) with
        | Throw e => Some (Throw e)
        | Normal x =>
            if Variant.isJust x then Some (Normal x)
            else rightmost_loop fuel' maybes (i - 1)
        end
      else Some (Normal zero)
  end.

(** [rightmost(...maybes)]: the loop starts at [i = maybes.length]. *)
Definition rightmost (fuel : nat) (maybes : list (Maybe A))
  : option (Completion (Maybe A)) :=
  rightmost_loop fuel maybes (Z.of_nat (length maybes)).
End Variadic.

End Maybe.

(* ================================================================== *)
(** ** maybe.ts: the instance methods of [class Maybe] *)
(* ================================================================== *)

Module Method.

Section Methods.
Variables A B R : Type.
Variable this : Maybe A.

Definition map (fn : A -> B) : Maybe B := Maybe.map fn this.

Definition zip (mb : Maybe B) : Completion (Maybe (Tuple.Tuple A B)) :=
  Maybe.zip this mb.

Definition zipWith (mb : Maybe B) (fn : A * B -> R) : Maybe R :=
  Maybe.zipWith fn (this, mb).

Definition bind (fn : A -> Maybe B) : Maybe B := Maybe.bind fn this.

Definition or (m : Maybe A) : Maybe A := Maybe.or this m.

Definition orElse (def : A) : A :=
  Variant.fold this {| just := id; nothing := def |}.
End Methods.

End Method.

(* ================================================================== *)
(** ** Observing the calls made to a caller-supplied function *)
(* ================================================================== *)

Module Observed.

(** A computation paired with the argument lists of the calls it made
    to the caller's function, oldest first. *)
Definition Observed (C X : Type) : Type := (list C * X)%type.

Definition calls {C X : Type} (c : Observed C X) : list C := Datatypes.fst c.
Definition value {C X : Type} (c : Observed C X) : X := Datatypes.snd c.

Definition ret {C X : Type} (x : X) : Observed C X := ([], x).

Definition seq {C X Y : Type} (c : Observed C X) (k : X -> Observed C Y)
  : Observed C Y :=
  (calls c ++ calls (k (value c)), value (k (value c))).

Section Probes.
Variables A B R : Type.

(** The call [fn(a, b)], recorded. *)
Definition invoke2 (fn : A * B -> R) (a : A) (b : B) : Observed (A * B) R :=
  ([(a, b)], fn (a, b)).

(** [Maybe.zipWith] with every call of [fn] recorded. *)
Definition zipWith (fn : A * B -> R)
  : Maybe A * Maybe B -> Observed (A * B) (Maybe R) :=
  fun '(ma, mb) =>
    Variant.fold ma
      {| just := fun a =>
           Variant.fold mb
             {| just := fun b =>
                  seq (invoke2 fn a b) (fun r => ret (Maybe.of_ r));
                nothing := ret Maybe.zero |};
         nothing := ret Maybe.zero |}.
End Probes.

(** The call [fn(a)], recorded. *)
Definition invoke1 {A B : Type} (fn : A -> B) (a : A) : Observed A B :=
  ([a], fn a).

Section UnaryProbes.
Variables A B : Type.

(** [Maybe.map] with every call of [fn] recorded. *)
Definition map (fn : A -> B) : Maybe A -> Observed A (Maybe B) :=
  fun ma =>
    Variant.fold ma
      {| just := fun a => seq (invoke1 fn a) (fun b => ret (Just b));
         nothing := ret Maybe.zero |}.

(** [Maybe.bind] with every call of [fn] recorded. *)
Definition bind (fn : A -> Maybe B) : Maybe A -> Observed A (Maybe B) :=
  fun ma =>
    Variant.fold ma
      {| just := fun a => seq (invoke1 fn a) (fun mb => ret mb);
         nothing := ret Maybe.zero |}.

(** [Maybe.ap] with every call of the wrapped function recorded. *)
Definition ap (mf : Maybe (A -> B)) (ma : Maybe A) : Observed A (Maybe B) :=
  Variant.fold mf
    {| just := fun f =>
         Variant.fold ma
           {| just := fun a => seq (invoke1 f a) (fun b => ret (Maybe.of_ b));
              nothing := ret Maybe.zero |};
       nothing := ret Maybe.zero |}.
End UnaryProbes.

End Observed.

(* ================================================================== *)
(** ** Supporting lemmas *)
(* ================================================================== *)

Section VariadicFacts.
Variable A : Type.

(** A callback that always completes normally makes [forEach] complete
    normally, whatever the callback returns. *)
Lemma forEach_normal (Y : Type) (callbackfn : Maybe A -> Completion Y)
      (arr : list (Maybe A)) :
  (forall v, exists y, callbackfn v = Normal y) ->
  forEach callbackfn arr = Normal tt.
Proof.
  intros Hcb. induction arr as [| v rest IH]; simpl.
  - reflexivity.
  - destruct (Hcb v) as [y Hy]. rewrite Hy. simpl. exact IH.
Qed.

(** [leftmost] never raises and never returns anything but [zero()]. *)
Lemma leftmost_always_zero (maybes : list (Maybe A)) :
  Maybe.leftmost maybes = Normal Maybe.zero.
Proof.
  unfold Maybe.leftmost. rewrite forEach_normal.
  - reflexivity.
  - intros v. destruct (Variant.isJust v); eauto.
Qed.

Lemma index_nil (i : Z) : index (@nil (Maybe A)) i = None.
Proof.
  unfold index. destruct (i <? 0)%Z; [reflexivity |].
  destruct (Z.to_nat i); reflexivity.
Qed.

(** The loop test [0 >= i] fails at once for a non-empty array and
    holds for the empty one, whose element [0] is [undefined]. *)
Lemma rightmost_run (fuel : nat) (maybes : list (Maybe A)) :
  Maybe.rightmost (S fuel) maybes =
  Some (match maybes with
        | [] => Throw TypeError
        | _ :: _ => Normal Maybe.zero
        end).
Proof.
  unfold Maybe.rightmost. destruct maybes as [| m rest].
  - simpl. reflexivity.
  - cbn [Maybe.rightmost_loop].
    replace (0 >=? Z.of_nat (length (m :: rest)))%Z with false.
    + reflexivity.
    + symmetry. rewrite Z.geb_leb. apply Z.leb_gt. simpl length. lia.
Qed.

(** One unit of fuel is all the loop ever uses. *)
Lemma rightmost_fuel_irrelevant (fuel fuel' : nat) (maybes : list (Maybe A)) :
  Maybe.rightmost (S fuel) maybes = Maybe.rightmost (S fuel') maybes.
Proof. now rewrite !rightmost_run. Qed.

End VariadicFacts.

Section ObservedFacts.
Variables A B R : Type.

(** Forgetting the recorded calls gives [Maybe.zipWith] back. *)
Lemma observed_zipWith_value (fn : A * B -> R) (ma : Maybe A) (mb : Maybe B) :
  Observed.value (Observed.zipWith fn (ma, mb)) = Maybe.zipWith fn (ma, mb).
Proof. destruct ma, mb; reflexivity. Qed.

Lemma observed_zipWith_calls (fn : A * B -> R) (ma : Maybe A) (mb : Maybe B) :
  Observed.calls (Observed.zipWith fn (ma, mb)) =
  match ma, mb with
  | Just a, Just b => [(a, b)]
  | _, _ => []
  end.
Proof. destruct ma, mb; reflexivity. Qed.

End ObservedFacts.

(* ================================================================== *)
(** ** The variadic scans *)
(* ================================================================== *)

(** C1. [leftmost] is documented to return the first [Just] of the
    sequence, so [leftmost(Nothing, Just(7), Just(9))] should be
    [Just(7)].  The code returns [Nothing] there: the [return v] inside
    the [forEach] callback leaves the callback only. *)
Theorem leftmost_loses_first_Just :
  Maybe.leftmost [Nothing; Just 7%Z; Just 9%Z] = Normal Nothing /\
  Maybe.leftmost [Nothing; Just 7%Z; Just 9%Z] <> Normal (Just 7%Z).
Proof.
  rewrite leftmost_always_zero. split; [reflexivity | discriminate].
Qed.

(** C2. [rightmost] is documented to return the last [Just] of the
    sequence, so [rightmost(Just(7), Just(9), Nothing)] should be
    [Just(9)].  The code returns [Nothing] there as soon as it has any
    fuel, and with no amount of fuel returns [Just(9)]: the loop test
    [0 >= i] is false at [i = 3]. *)
Theorem rightmost_loses_last_Just (fuel : nat) :
  Maybe.rightmost (S fuel) [Just 7%Z; Just 9%Z; Nothing] = Some (Normal Nothing) /\
  Maybe.rightmost fuel [Just 7%Z; Just 9%Z; Nothing] <> Some (Normal (Just 9%Z)).
Proof.
  split.
  - apply rightmost_run.
  - destruct fuel as [| fuel'].
    + discriminate.
    + rewrite rightmost_run. discriminate.
Qed.

(** C3. The combinators are claimed never to throw, the empty variadic
    sequence included.  [rightmost()] with no arguments raises a
    [TypeError]: the loop is entered at [i = 0], [maybes[0]] is
    [undefined], and [x.isJust()] is called on it. *)
Theorem rightmost_empty_throws (A : Type) (fuel : nat) :
  Maybe.rightmost (S fuel) (@nil (Maybe A)) = Some (Throw TypeError).
Proof. apply rightmost_run. Qed.

(* ================================================================== *)
(** ** The combinators built on [fold] *)
(* ================================================================== *)

(** C4. [zipWith(fn)(ma, mb)] is [Just(fn(a, b))] when [ma = Just(a)] and
    [mb = Just(b)], and [Nothing] when either argument is [Nothing];
    [fn] is called once, on [(a, b)], when both are present, and is not
    called at all otherwise. *)
Theorem zipWith_both_present (A B R : Type) (fn : A * B -> R) :
  (forall a b, Maybe.zipWith fn (Just a, Just b) = Just (fn (a, b))) /\
  (forall mb, Maybe.zipWith fn (Nothing, mb) = Nothing) /\
  (forall ma, Maybe.zipWith fn (ma, Nothing) = Nothing) /\
  (forall ma mb,
      Observed.value (Observed.zipWith fn (ma, mb)) = Maybe.zipWith fn (ma, mb) /\
      Observed.calls (Observed.zipWith fn (ma, mb)) =
      match ma, mb with
      | Just a, Just b => [(a, b)]
      | _, _ => []
      end).
Proof.
  repeat split.
  - intros ma. destruct ma; reflexivity.
  - apply observed_zipWith_value.
  - apply observed_zipWith_calls.
Qed.

(** C5. Monad identity laws: [bind(fn)(of(a)) = fn(a)] for every [a] and
    [fn], and [bind(of)(m) = m] for every [m]. *)
Theorem bind_identity_laws (A B : Type) :
  (forall (fn : A -> Maybe B) (a : A), Maybe.bind fn (Maybe.of_ a) = fn a) /\
  (forall m : Maybe A, Maybe.bind (@Maybe.of_ A) m = m).
Proof.
  split.
  - intros fn a. reflexivity.
  - intros m. case m; reflexivity.
Qed.

(** C6. Functor laws: [map(id)] is the identity on every [Maybe] value,
    in particular on [of(a)]; [map] of a composition is the composition
    of the [map]s; and [map(f)(zero()) = zero()]. *)
Theorem map_functor_laws (A B C : Type) :
  (forall m : Maybe A, Maybe.map id m = id m) /\
  (forall a : A, Maybe.map id (Maybe.of_ a) = Maybe.of_ a) /\
  (forall (f : A -> B) (g : B -> C) (m : Maybe A),
      Maybe.map (fun a => g (f a)) m = Maybe.map g (Maybe.map f m)) /\
  (forall f : A -> B, Maybe.map f Maybe.zero = Maybe.zero).
Proof.
  repeat split.
  - intros m. case m; reflexivity.
  - intros f g m. case m; reflexivity.
Qed.

(** C7. Each instance method gives what the free function of the same
    name gives when the receiver is passed first: [m.map(fn)],
    [m.zip(mb)], [m.zipWith(mb, fn)], [m.bind(fn)] and [m.or(m2)]. *)
Theorem methods_delegate (A B R : Type) (m : Maybe A) :
  (forall fn : A -> B, Method.map m fn = Maybe.map fn m) /\
  (forall mb : Maybe B, Method.zip m mb = Maybe.zip m mb) /\
  (forall (mb : Maybe B) (fn : A * B -> R),
      Method.zipWith m mb fn = Maybe.zipWith fn (m, mb)) /\
  (forall fn : A -> Maybe B, Method.bind m fn = Maybe.bind fn m) /\
  (forall m2 : Maybe A, Method.or m m2 = Maybe.or m m2).
Proof. repeat split. Qed.

(** C8. [or(m1, m2)] is [m1] when [m1] is a [Just] and [m2] otherwise;
    so [or(Just(1), Just(2)) = Just(1)], [or(Nothing, Just(2)) = Just(2)]
    and [or(Nothing, Nothing) = Nothing]. *)
Theorem or_prefers_first (A : Type) (m1 m2 : Maybe A) :
  Maybe.or m1 m2 = (if Variant.isJust m1 then m1 else m2) /\
  Maybe.or (Just 1%Z) (Just 2%Z) = Just 1%Z /\
  Maybe.or Nothing (Just 2%Z) = Just 2%Z /\
  Maybe.or (@Nothing Z) Nothing = Nothing.
Proof.
  repeat split. case m1; reflexivity.
Qed.

(** C9. The currying helpers round-trip: for a function [fn] of two
    parameters, [tuple(fn)(Tuple.of(a, b))], the staged calls
    [curry(fn)(a)(b)] and [curryTuple(tuple(fn))(a)(b)] are all the one
    call [fn(a, b)], and [curry(fn)] is the same staged function as
    [curryTuple(tuple(fn))]. *)
Theorem tuple_curry_round_trip (A B R : Type) (fn : A * B -> R) :
  (forall a b, Tuple.tuple fn (Tuple.of_ (a, b)) = fn (a, b)) /\
  (forall a b, Tuple.curry fn a b = fn (a, b)) /\
  (forall a b, Tuple.curryTuple (Tuple.tuple fn) a b = fn (a, b)) /\
  Tuple.curry fn = Tuple.curryTuple (Tuple.tuple fn).
Proof. repeat split. Qed.

(** C10. [ap(mf, ma)] is [zipWith((f, a) => f(a))(mf, ma)]; both are
    [Just(f(a))] when [mf = Just(f)] and [ma = Just(a)], and [Nothing]
    in the three other cases. *)
Theorem ap_is_zipWith_apply (A B : Type) (mf : Maybe (A -> B)) (ma : Maybe A) :
  Maybe.ap mf ma = Maybe.zipWith (fun '(f, a) => f a) (mf, ma) /\
  Maybe.ap mf ma =
  match mf, ma with
  | Just f, Just a => Just (f a)
  | _, _ => Nothing
  end.
Proof.
  split.
  - reflexivity.
  - destruct mf, ma; reflexivity.
Qed.

(* ================================================================== *)
(** ** Further properties: sequencing with [bind] *)
(* ================================================================== *)

Section BindFacts.
Variables A B C : Type.

(** X1. [bind] is associative: binding [g] after [bind(fn)] is binding
    the function [a => bind(g)(fn(a))]. *)
Theorem bind_assoc (fn : A -> Maybe B) (g : B -> Maybe C) (m : Maybe A) :
  Maybe.bind g (Maybe.bind fn m) = Maybe.bind (fun a => Maybe.bind g (fn a)) m.
Proof. destruct m as [a |]; reflexivity. Qed.

(** X2. [Nothing] absorbs [bind] on both sides: [bind(fn)(zero())] is
    [Nothing], and binding a function that always answers [zero()] gives
    [Nothing] whatever the receiver holds. *)
Theorem bind_zero_absorbs (fn : A -> Maybe B) (m : Maybe A) :
  Maybe.bind fn Maybe.zero = Maybe.zero /\
  Maybe.bind (fun _ : A => @Maybe.zero B) m = Maybe.zero.
Proof. split; [reflexivity | destruct m; reflexivity]. Qed.

(** X3. [map] is [bind] followed by [of]: [map(fn)(m)] equals
    [bind(a => of(fn(a)))(m)]. *)
Theorem map_via_bind (fn : A -> B) (m : Maybe A) :
  Maybe.map fn m = Maybe.bind (fun a => Maybe.of_ (fn a)) m.
Proof. destruct m; reflexivity. Qed.

End BindFacts.

(* ================================================================== *)
(** ** Further properties: [zipWith] and [Tuple] *)
(* ================================================================== *)

Section ZipFacts.
Variables A B R : Type.

(** X4. [zipWith] is a [bind] over the first argument with a [map] over
    the second inside. *)
Theorem zipWith_via_bind_map (fn : A * B -> R) (ma : Maybe A) (mb : Maybe B) :
  Maybe.zipWith fn (ma, mb) =
  Maybe.bind (fun a => Maybe.map (fun b => fn (a, b)) mb) ma.
Proof. destruct ma, mb; reflexivity. Qed.

(** X5. Swapping the two [Maybe] arguments and the two parameters of
    [fn] does not change the result of [zipWith]. *)
Theorem zipWith_flip (fn : A * B -> R) (ma : Maybe A) (mb : Maybe B) :
  Maybe.zipWith fn (ma, mb) = Maybe.zipWith (fun '(b, a) => fn (a, b)) (mb, ma).
Proof. destruct ma, mb; reflexivity. Qed.

(** X6. [map] commutes with [zipWith]: mapping [h] over the result is
    zipping with [h] applied after [fn], and mapping [f] and [g] over the
    arguments is zipping with [fn] applied after them. *)
Theorem zipWith_map_fusion (A' B' S : Type) (fn : A * B -> R)
        (h : R -> S) (f : A' -> A) (g : B' -> B)
        (ma : Maybe A) (mb : Maybe B) (ma' : Maybe A') (mb' : Maybe B') :
  Maybe.map h (Maybe.zipWith fn (ma, mb)) =
    Maybe.zipWith (fun '(a, b) => h (fn (a, b))) (ma, mb) /\
  Maybe.zipWith fn (Maybe.map f ma', Maybe.map g mb') =
    Maybe.zipWith (fun '(a, b) => fn (f a, g b)) (ma', mb').
Proof.
  split.
  - destruct ma, mb; reflexivity.
  - destruct ma', mb'; reflexivity.
Qed.

(** X7. Unzipping and pairing again is the identity: for every
    [mt : Maybe<Tuple<A, B>>], [zipWith(Tuple.of)] applied to
    [map(t => t.fst)(mt)] and [map(t => t.snd)(mt)] gives [mt] back. *)
Theorem zipWith_of_unzip (mt : Maybe (Tuple.Tuple A B)) :
  Maybe.zipWith (@Tuple.of_ A B)
    (Maybe.map (@Tuple.fst A B) mt, Maybe.map (@Tuple.snd A B) mt) = mt.
Proof. destruct mt as [[a b] |]; reflexivity. Qed.

(** X8. The components of [zipWith(Tuple.of)(ma, mb)]: projecting [fst]
    gives [ma] when [mb] is a [Just] and [Nothing] otherwise, and
    projecting [snd] gives [mb] when [ma] is a [Just] and [Nothing]
    otherwise. *)
Theorem zipWith_of_projections (ma : Maybe A) (mb : Maybe B) :
  Maybe.map (@Tuple.fst A B) (Maybe.zipWith (@Tuple.of_ A B) (ma, mb)) =
    (if Variant.isJust mb then ma else Maybe.zero) /\
  Maybe.map (@Tuple.snd A B) (Maybe.zipWith (@Tuple.of_ A B) (ma, mb)) =
    (if Variant.isJust ma then mb else Maybe.zero).
Proof. destruct ma, mb; split; reflexivity. Qed.

(** X9. [zipWith] factors through pairing: [zipWith(fn)(ma, mb)] is
    [map(tuple(fn))] of [zipWith(Tuple.of)(ma, mb)], and for a function
    [g] on tuples [map(g)] of [zipWith(Tuple.of)(ma, mb)] is [zipWith] of
    the two-parameter function [(a, b) => curryTuple(g)(a)(b)]. *)
Theorem zipWith_through_of (fn : A * B -> R) (g : Tuple.Tuple A B -> R)
        (ma : Maybe A) (mb : Maybe B) :
  Maybe.map (Tuple.tuple fn) (Maybe.zipWith (@Tuple.of_ A B) (ma, mb)) =
    Maybe.zipWith fn (ma, mb) /\
  Maybe.map g (Maybe.zipWith (@Tuple.of_ A B) (ma, mb)) =
    Maybe.zipWith (fun '(a, b) => Tuple.curryTuple g a b) (ma, mb).
Proof. destruct ma, mb; split; reflexivity. Qed.

(** X10. [tuple] undoes [curryTuple] once the staged function is called
    in its two stages: for every function [g] on tuples and every tuple
    [t], [tuple((a, b) => curryTuple(g)(a)(b))(t) = g(t)]; and a tuple
    is rebuilt by [Tuple.of] from its two fields. *)
Theorem tuple_of_staged_curryTuple (g : Tuple.Tuple A B -> R) (t : Tuple.Tuple A B) :
  Tuple.tuple (fun '(a, b) => Tuple.curryTuple g a b) t = g t /\
  Tuple.of_ (Tuple.fst t, Tuple.snd t) = t.
Proof. destruct t as [a b]. split; reflexivity. Qed.

(** X11. Presence of the result: [zipWith] and [ap] give a [Just]
    exactly when both arguments are [Just]s, and [map] gives a [Just]
    exactly when its argument is one. *)
Theorem isJust_of_products (fn : A * B -> R) (f : A -> B)
        (ma : Maybe A) (mb : Maybe B) (mf : Maybe (A -> B)) :
  Variant.isJust (Maybe.zipWith fn (ma, mb)) = Variant.isJust ma && Variant.isJust mb /\
  Variant.isJust (Maybe.ap mf ma) = Variant.isJust mf && Variant.isJust ma /\
  Variant.isJust (Maybe.map f ma) = Variant.isJust ma.
Proof. destruct ma, mb, mf; repeat split. Qed.

End ZipFacts.

(* ================================================================== *)
(** ** Further properties: alternatives with [or] and [orElse] *)
(* ================================================================== *)

Section OrFacts.
Variables A B : Type.

(** X12. [or] with [zero()] is a monoid: [or] is associative, [zero()]
    is its identity on both sides, and [or(m, m) = m]. *)
Theorem or_monoid (m1 m2 m3 : Maybe A) :
  Maybe.or (Maybe.or m1 m2) m3 = Maybe.or m1 (Maybe.or m2 m3) /\
  Maybe.or Maybe.zero m1 = m1 /\
  Maybe.or m1 Maybe.zero = m1 /\
  Maybe.or m1 m1 = m1.
Proof. destruct m1, m2; repeat split. Qed.

(** X13. [or] gives a [Just] exactly when one of its arguments is a
    [Just], and [map] distributes over [or]. *)
Theorem or_presence_and_map (fn : A -> B) (m1 m2 : Maybe A) :
  Variant.isJust (Maybe.or m1 m2) = Variant.isJust m1 || Variant.isJust m2 /\
  Maybe.map fn (Maybe.or m1 m2) = Maybe.or (Maybe.map fn m1) (Maybe.map fn m2).
Proof. destruct m1, m2; split; reflexivity. Qed.

(** X14. [orElse] leaves the [Maybe] world consistently with [or]:
    wrapping [m.orElse(def)] again is [or(m, of(def))]; the default of an
    [or] is the default of the first with the default of the second as
    fallback; and [orElse] commutes with [map]. *)
Theorem orElse_laws (fn : A -> B) (m m2 : Maybe A) (def : A) :
  Maybe.of_ (Method.orElse m def) = Maybe.or m (Maybe.of_ def) /\
  Method.orElse (Maybe.or m m2) def = Method.orElse m (Method.orElse m2 def) /\
  Method.orElse (Maybe.map fn m) (fn def) = fn (Method.orElse m def).
Proof. destruct m, m2; repeat split. Qed.

End OrFacts.

(* ================================================================== *)
(** ** Further properties: application with [ap] *)
(* ================================================================== *)

Section ApFacts.
Variables A B C : Type.

(** X15. The applicative laws of [ap] with [of]: identity,
    homomorphism, interchange and composition. *)
Theorem ap_applicative_laws (f : A -> B) (a : A)
        (m : Maybe A) (mf : Maybe (A -> B)) (mg : Maybe (B -> C)) :
  Maybe.ap (Maybe.of_ (@id A)) m = m /\
  Maybe.ap (Maybe.of_ f) (Maybe.of_ a) = Maybe.of_ (f a) /\
  Maybe.ap mf (Maybe.of_ a) = Maybe.ap (Maybe.of_ (fun h : A -> B => h a)) mf /\
  Maybe.ap (Maybe.ap (Maybe.ap
              (Maybe.of_ (fun (g : B -> C) (h : A -> B) (x : A) => g (h x)))
              mg) mf) m
    = Maybe.ap mg (Maybe.ap mf m).
Proof. destruct m, mf, mg; repeat split. Qed.

(** X16. [ap] in terms of the other combinators: applying [of(f)] is
    [map(f)], and [ap(mf, ma)] is [bind(f => map(f)(ma))(mf)]. *)
Theorem ap_via_map_bind (f : A -> B) (mf : Maybe (A -> B)) (ma : Maybe A) :
  Maybe.ap (Maybe.of_ f) ma = Maybe.map f ma /\
  Maybe.ap mf ma = Maybe.bind (fun h => Maybe.map h ma) mf.
Proof. destruct mf, ma; split; reflexivity. Qed.

End ApFacts.

(* ================================================================== *)
(** ** Further properties: [fold] and [guard] *)
(* ================================================================== *)

Section FoldFacts.
Variables A R S : Type.

(** X17. [fold] is the eliminator of [Maybe]: folding with [of] and
    [zero()] is the identity; any function [h] on [Maybe<A>] is the fold
    of what it does on [Just]s and on [Nothing]; and applying [k] after a
    fold is folding with [k] applied to both handlers. *)
Theorem fold_eliminator (h : Maybe A -> R) (k : R -> S) (match_ : Elim A R)
        (m : Maybe A) :
  Maybe.fold {| just := @Maybe.of_ A; nothing := Maybe.zero |} m = m /\
  Maybe.fold {| just := fun a => h (Just a); nothing := h Nothing |} m = h m /\
  k (Maybe.fold match_ m) =
    Maybe.fold {| just := fun a => k (just match_ a);
                  nothing := k (nothing match_) |} m.
Proof. destruct m; repeat split. Qed.

(** X18. [isJust] is a fold, and the free function [fold] agrees with
    the method: [m.isJust()] is [fold({just: _ => true, nothing: false})(m)]
    and [fold(match)(m)] is [m.fold(match)]. *)
Theorem isJust_is_fold (match_ : Elim A R) (m : Maybe A) :
  Variant.isJust m = Maybe.fold {| just := fun _ => true; nothing := false |} m /\
  Maybe.fold match_ m = Variant.fold m match_.
Proof. destruct m; split; reflexivity. Qed.

End FoldFacts.

(** X19. [guard] turns booleans into [Maybe<{}>] faithfully:
    [guard(b)] is a [Just] exactly when [b] is true, conjunction becomes
    [zipWith], disjunction becomes [or], and sequencing a [Maybe] after
    [guard(b)] keeps it when [b] is true and drops it otherwise. *)
Theorem guard_homomorphism (A : Type) (b1 b2 : bool) (m : Maybe A) :
  Variant.isJust (Maybe.guard b1) = b1 /\
  Maybe.guard (b1 && b2) =
    Maybe.zipWith (fun _ => tt) (Maybe.guard b1, Maybe.guard b2) /\
  Maybe.guard (b1 || b2) = Maybe.or (Maybe.guard b1) (Maybe.guard b2) /\
  Maybe.bind (fun _ => m) (Maybe.guard b1) = (if b1 then m else Maybe.zero).
Proof. destruct b1, b2; repeat split. Qed.

(* ================================================================== *)
(** ** Further properties: the variadic scans as written *)
(* ================================================================== *)

Section ScanFacts.
Variable A : Type.

(** X20. [leftmost] never raises and returns [Nothing] for every
    sequence of arguments, whatever they hold and however many there
    are. *)
Theorem leftmost_constant (maybes : list (Maybe A)) :
  Maybe.leftmost maybes = Normal Nothing.
Proof. exact (leftmost_always_zero maybes). Qed.

(** X21. Given at least one argument, [rightmost] returns [Nothing]
    without raising and without looking at any argument. *)
Theorem rightmost_nonempty_zero (fuel : nat) (maybes : list (Maybe A)) :
  maybes <> [] ->
  Maybe.rightmost (S fuel) maybes = Some (Normal Nothing).
Proof.
  intros Hne. rewrite rightmost_run.
  destruct maybes as [| m rest]; [contradiction | reflexivity].
Qed.

(** X22. [rightmost] always terminates, within one turn of its loop:
    there is a completion that every positive amount of fuel produces,
    and it is a raised [TypeError] exactly when there is no argument. *)
Theorem rightmost_throws_iff_empty (maybes : list (Maybe A)) :
  exists c : Completion (Maybe A),
    (forall fuel, Maybe.rightmost (S fuel) maybes = Some c) /\
    (c = Throw TypeError <-> maybes = []).
Proof.
  destruct maybes as [| m rest].
  - exists (Throw TypeError). split.
    + intros fuel. apply rightmost_run.
    + split; reflexivity.
  - exists (Normal Maybe.zero). split.
    + intros fuel. apply rightmost_run.
    + split; discriminate.
Qed.

End ScanFacts.

Lemma rightmost_nonempty_zero_witness :
  [Just 1%Z] <> [] /\
  Maybe.rightmost 1 [Just 1%Z] = Some (Normal Nothing).
Proof.
  split.
  - discriminate.
  - apply (@rightmost_nonempty_zero Z 0 [Just 1%Z]). discriminate.
Defined.

(* ================================================================== *)
(** ** Further properties: when the caller's function is called *)
(* ================================================================== *)

Section CallFacts.
Variables A B : Type.

(** X23. [map] and [bind] call [fn] once, on the contained value, when
    the receiver is a [Just], and do not call it for a [Nothing];
    forgetting the record of calls gives [Maybe.map] and [Maybe.bind]. *)
Theorem map_bind_calls (fn : A -> B) (k : A -> Maybe B) (m : Maybe A) :
  Observed.value (Observed.map fn m) = Maybe.map fn m /\
  Observed.value (Observed.bind k m) = Maybe.bind k m /\
  Observed.calls (Observed.map fn m) =
    match m with
    | Just a => [a]
    | Nothing => []
    end /\
  Observed.calls (Observed.bind k m) = Observed.calls (Observed.map fn m).
Proof. destruct m; repeat split. Qed.

(** X24. [ap] calls the wrapped function once, on the wrapped argument,
    when both are present, and not at all when either is [Nothing];
    forgetting the record of calls gives [Maybe.ap]. *)
Theorem ap_calls (mf : Maybe (A -> B)) (ma : Maybe A) :
  Observed.value (Observed.ap mf ma) = Maybe.ap mf ma /\
  Observed.calls (Observed.ap mf ma) =
    match mf, ma with
    | Just _, Just a => [a]
    | _, _ => []
    end.
Proof. destruct mf, ma; split; reflexivity. Qed.

End CallFacts.

(* ================================================================== *)
(** ** Further properties: [zip] and the imported [Tuple] *)
(* ================================================================== *)

(** X25. [zip] raises a [TypeError] on every pair of arguments, and so
    does the method [m.zip(mb)]: [tuple.ts] stores its default export
    before the namespace [Tuple] is assigned, so the [Tuple] that
    [maybe.ts] imports is [undefined], although [Tuple] is defined
    inside [tuple.ts] once the module has run; with the two statements
    in the other order the export would be the namespace. *)
Theorem zip_always_throws (A B : Type) (ma : Maybe A) (mb : Maybe B) :
  Maybe.zip ma mb = Throw TypeError /\
  Method.zip ma mb = Throw TypeError /\
  imported_Tuple = None /\
  Tuple.var_Tuple Tuple.tuple_ts = Some Tuple.namespace /\
  Tuple.export_default
    (Tuple.run_export_default (Tuple.run_module_Tuple Tuple.scope0))
  = Some Tuple.namespace.
Proof. repeat split. Qed.
